(** * smart-plant: the read / evaluate / publish loop of [main.py]

    A shallow embedding of [send_alerts] and of the body of the polling loop
    of [main], together with the properties of the threshold rules.

    Sensor readings are Python floats, that is IEEE-754 binary64 values; they
    are modelled with the [spec_float] type of the standard library, compared
    with [SFltb], and rendered by a model of the [.2f] format.  The local
    output stream and the calls made on the MQTT client are kept in an
    explicit [World] that the embedded functions thread. *)

From Stdlib Require Import ZArith List String Ascii Bool Lia.
From Stdlib Require Import SpecFloat DecimalString DecimalN.
Import ListNotations.

Local Open Scope string_scope.
Local Open Scope Z_scope.

(** ** Python floats *)

Module PyFloat.

Definition prec : Z := 53.
Definition emax : Z := 1024.

Definition float : Type := spec_float.

(** [float(n)] for a Python int [n]; exact whenever [|n| < 2^53]. *)
Definition of_int (n : Z) : float := binary_normalize prec emax n 0 false.

(** The float denoted by a decimal literal with digits [d] and [k] digits
    after the point, e.g. [0.2] is [of_decimal 2 1]: the correctly rounded
    quotient of two exactly representable integers. *)
Definition of_decimal (d : Z) (k : nat) : float :=
  SFdiv prec emax (of_int d) (of_int (10 ^ Z.of_nat k)).

(** Python's [x < y] and [x > y] on floats (false as soon as one side is
    a NaN).  An int operand such as [15] is compared by value, which for
    the small constants of the program is the comparison with its float. *)
Definition lt (x y : float) : bool := SFltb x y.
Definition gt (x y : float) : bool := SFltb y x.
Definition le (x y : float) : bool := SFleb x y.
Definition eq (x y : float) : bool := SFeqb x y.

Definition is_valid (x : float) : bool := valid_binary prec emax x.

(** *** The [.2f] format *)

(** Nearest integer to [n / d], ties to the even one ([d > 0]). *)
Definition div_half_even (n d : Z) : Z :=
  let q := n / d in
  let r := n mod d in
  match 2 * r ?= d with
  | Lt => q
  | Gt => q + 1
  | Eq => if Z.even q then q else q + 1
  end.

(** The magnitude [m * 2^e] in hundredths, rounded as [.2f] rounds. *)
Definition hundredths (m : positive) (e : Z) : Z :=
  match e with
  | Zneg p => div_half_even (100 * Zpos m) (2 ^ Zpos p)
  | _ => 100 * Zpos m * 2 ^ e
  end.

Definition digits (n : Z) : string :=
  NilZero.string_of_uint (N.to_uint (Z.to_N n)).

(** A count of hundredths printed with two digits after the point. *)
Definition fixed2 (h : Z) : string :=
  let c := h mod 100 in
  digits (h / 100) ++ "." ++ digits (c / 10) ++ digits (c mod 10).

Definition sign_str (s : bool) : string := if s then "-" else "".

(** [format(x, '.2f')] *)
Definition format_2f (x : float) : string :=
  match x with
  | S754_nan => "nan"
  | S754_infinity s => sign_str s ++ "inf"
  | S754_zero s => sign_str s ++ "0.00"
  | S754_finite s m e => sign_str s ++ fixed2 (hundredths m e)
  end.

End PyFloat.

Import PyFloat.

(** ** The world the program acts on *)

(** What a call of [client.publish] does, as far as the caller can see: it
    returns an [MQTTMessageInfo] whose [rc] is [0] on success and an error
    code otherwise, or it raises. *)
Inductive PublishOutcome : Type :=
| Returned (rc : Z)
| Raises (e : string).

(** [stdout] holds the lines printed so far, oldest first; [publish_calls]
    the [(topic, payload)] arguments of the calls of [client.publish] made so
    far, oldest first. *)
Record World : Type := mkWorld {
  stdout : list string;
  publish_calls : list (string * string)
}.

Inductive Result (A : Type) : Type :=
| Ok (a : A)
| Raised (e : string).
Arguments Ok {A} a.
Arguments Raised {A} e.

(** Computations that read and extend the world and may raise. *)
Definition M (A : Type) : Type := World -> Result A * World.

Definition ret {A : Type} (a : A) : M A := fun w => (Ok a, w).

Definition bind {A B : Type} (c : M A) (k : A -> M B) : M B :=
  fun w =>
    match c w with
    | (Ok a, w') => k a w'
    | (Raised e, w') => (Raised e, w')
    end.

Notation "x <- c ;; k" := (bind c (fun x => k))
  (at level 61, c at next level, right associativity).
Notation "c ;; k" := (bind c (fun _ => k))
  (at level 61, right associativity).

(** [print(line)] *)
Definition print (line : string) : M unit :=
  fun w => (Ok tt, mkWorld (stdout w ++ [line])%list (publish_calls w)).

(** ** Configuration ([main.py], lines 24-31) *)

Definition MOISTURE_THRESHOLD : Z := 300.
Definition TOPIC : string := "smart-plant/monitoring".

(** ** [send_alerts] ([main.py], lines 63-79) *)

(** The value of a Python [list] variable after [alerts.append(a)]. *)
Definition list_append (alerts : list string) (a : string) : list string :=
  (alerts ++ [a])%list.

(** The result is [None] for Python's [None] (the bare [return]) and
    [Some alerts] for the list [alerts]. *)
Definition send_alerts (humidity temperature : option float)
    (soil_moisture light_intensity : float) : M (option (list string)) :=
  match humidity, temperature with
  | Some _, Some temperature =>
      let alerts := [] in
      let alerts :=
        if gt soil_moisture (of_int MOISTURE_THRESHOLD)
        then list_append alerts "Soil is too dry. Consider watering the plant."
        else alerts in
      let alerts :=
        if lt temperature (of_int 15) || gt temperature (of_int 30)
        then list_append alerts
               ("Temperature is "
                ++ (if lt temperature (of_int 15) then "too low" else "too high")
                ++ ". Current temp: " ++ format_2f temperature ++ " C")
        else alerts in
      let alerts :=
        if lt light_intensity (of_decimal 2 1)
        then list_append alerts "Plant needs more light."
        else alerts in
      ret (Some alerts)
  | _, _ =>
      print "Failed to retrieve data from DHT sensor" ;;
      ret None
  end.

(** ** The polling loop of [main] ([main.py], lines 90-106) *)

(** One tuple returned by [read_environmental_data]:
    [(humidity, temperature, soil_moisture, light_intensity)]. *)
Definition Reading : Type := (option float * option float * float * float)%type.

(** Truth value of what [send_alerts] returned: [None] and the empty list
    are false. *)
Definition truthy (alerts : option (list string)) : bool :=
  match alerts with
  | None | Some [] => false
  | Some (_ :: _) => true
  end.

Definition items (alerts : option (list string)) : list string :=
  match alerts with
  | None => []
  | Some l => l
  end.

Section Loop.

(** The MQTT client and the network behind it are an external party: the
    outcome of a call of [client.publish] is given by [broker], applied to
    the calls made so far, the current one last. *)
Variable broker : list (string * string) -> PublishOutcome.

(** [client.publish(topic, payload)] *)
Definition client_publish (topic payload : string) : M Z :=
  fun w =>
    let calls := (publish_calls w ++ [(topic, payload)])%list in
    let w' := mkWorld (stdout w) calls in
    match broker calls with
    | Returned rc => (Ok rc, w')
    | Raises e => (Raised e, w')
    end.

(** [for alert in alerts: print(alert); client.publish(TOPIC, alert)] *)
Fixpoint for_alert_in (alerts : list string) : M unit :=
  match alerts with
  | [] => ret tt
  | alert :: rest =>
      print alert ;;
      client_publish TOPIC alert ;;
      for_alert_in rest
  end.

(** The body of [while True], [time.sleep(60)] apart, for the reading
    that [read_environmental_data] returned. *)
Definition loop_body (reading : Reading) : M unit :=
  let '(humidity, temperature, soil_moisture, light_intensity) := reading in
  alerts <- send_alerts humidity temperature soil_moisture light_intensity ;;
  if truthy alerts then for_alert_in (items alerts) else ret tt.

(** The iterations of [while True] for the given readings, one after the
    other, none of them interrupted; an exception ends them. *)
Fixpoint while_true (readings : list Reading) : M unit :=
  match readings with
  | [] => ret tt
  | reading :: rest => loop_body reading ;; while_true rest
  end.

(** The [try] statement of [main] in a run where the operator's interrupt
    arrives between two iterations, during [time.sleep(60)], after the
    given readings: the loop, then the handler of [KeyboardInterrupt] or,
    when a publish raised, of [Exception].  [main_run] below lets the
    interrupt arrive anywhere. *)
Definition main_loop (readings : list Reading) (w : World) : World :=
  match while_true readings w with
  | (Ok _, w') => snd (print "Terminating the program." w')
  | (Raised e, w') => snd (print ("An error occurred: " ++ e) w')
  end.

End Loop.

(** ** Kinds of alert *)

Definition soil_dry_alert : string :=
  "Soil is too dry. Consider watering the plant.".
Definition low_light_alert : string := "Plant needs more light.".
Definition sensor_failure_message : string :=
  "Failed to retrieve data from DHT sensor".

(** The temperature alert for a temperature and the wording chosen. *)
Definition temperature_alert (wording : string) (temperature : float) : string :=
  "Temperature is " ++ wording ++ ". Current temp: "
  ++ format_2f temperature ++ " C".

Definition is_moisture_alert (a : string) : bool := String.eqb a soil_dry_alert.
Definition is_temperature_alert (a : string) : bool :=
  String.prefix "Temperature is " a.
Definition is_light_alert (a : string) : bool := String.eqb a low_light_alert.

Definition count (kind : string -> bool) (alerts : list string) : nat :=
  List.length (List.filter kind alerts).

(** The alerts each rule contributes, as the specification words them:
    three independent rules, concatenated in the order moisture,
    temperature, light. *)
Definition moisture_rule (soil_moisture : float) : list string :=
  if gt soil_moisture (of_int 300) then [soil_dry_alert] else [].

Definition temperature_rule (temperature : float) : list string :=
  if lt temperature (of_int 15) then [temperature_alert "too low" temperature]
  else if gt temperature (of_int 30)
       then [temperature_alert "too high" temperature]
       else [].

Definition light_rule (light_intensity : float) : list string :=
  if lt light_intensity (of_decimal 2 1) then [low_light_alert] else [].

Definition evaluate_spec (temperature soil_moisture light_intensity : float)
  : list string :=
  (moisture_rule soil_moisture ++ temperature_rule temperature
   ++ light_rule light_intensity)%list.

(** *** Reading a numeral with two decimals *)

(** The value of a decimal digit character. *)
Definition digit_value (c : ascii) : option Z :=
  let n := Z.of_nat (nat_of_ascii c) in
  if (48 <=? n) && (n <=? 57) then Some (n - 48) else None.

(** The number that the digits [s] denote when written after digits
    denoting [acc]; [None] when [s] holds another character. *)
Fixpoint decimal_value (acc : Z) (s : string) : option Z :=
  match s with
  | EmptyString => Some acc
  | String c rest =>
      match digit_value c with
      | Some d => decimal_value (10 * acc + d) rest
      | None => None
      end
  end.

(** [s] cut at its first point. *)
Fixpoint split_at_point (s : string) : option (string * string) :=
  match s with
  | EmptyString => None
  | String c rest =>
      if Ascii.eqb c "."
      then Some (EmptyString, rest)
      else match split_at_point rest with
           | Some (before, after) => Some (String c before, after)
           | None => None
           end
  end.

(** The count of hundredths denoted by an unsigned numeral made of one or
    more digits, a point and exactly two digits. *)
Definition hundredths_denoted (s : string) : option Z :=
  match split_at_point s with
  | Some (String c before, String d1 (String d2 EmptyString)) =>
      match decimal_value 0 (String c before), digit_value d1, digit_value d2
      with
      | Some n, Some a, Some b => Some (100 * n + 10 * a + b)
      | _, _, _ => None
      end
  | _ => None
  end.

(** The sign ([true] for a leading minus) and the count of hundredths
    denoted by a numeral with two decimals, such as [-0.05] or [35.67]. *)
Definition reads_as (s : string) : option (bool * Z) :=
  match s with
  | String c rest =>
      if Ascii.eqb c "-"
      then option_map (pair true) (hundredths_denoted rest)
      else option_map (pair false) (hundredths_denoted s)
  | EmptyString => None
  end.

(** [s] renders [x] with two digits after the point: read back, [s] has
    the sign of [x] and, for a finite [x] of magnitude [m * 2^e], denotes a
    count [h] of hundredths no further than half a hundredth from it, the
    even one on a tie.  The infinities and NaN have their names. *)
Definition two_decimal_rendering (x : float) (s : string) : Prop :=
  match x with
  | S754_nan => s = "nan"
  | S754_infinity sg => s = if sg then "-inf" else "inf"
  | S754_zero sg => reads_as s = Some (sg, 0)
  | S754_finite sg m e =>
      exists h : Z,
        reads_as s = Some (sg, h) /\ 0 <= h /\
        let num := 200 * Zpos m * 2 ^ Z.max e 0 in
        let den := 2 ^ Z.max (- e) 0 in
        Z.abs (num - 2 * h * den) <= den /\
        (Z.abs (num - 2 * h * den) = den -> Z.even h = true)
  end.

(** The lines one iteration writes to the local output stream, and the
    payloads it hands to [client.publish], when no publish raises. *)
Definition iteration_payloads (reading : Reading) : list string :=
  match reading with
  | (Some _, Some temperature, soil_moisture, light_intensity) =>
      evaluate_spec temperature soil_moisture light_intensity
  | _ => []
  end.

Definition iteration_lines (reading : Reading) : list string :=
  match reading with
  | (Some _, Some _, _, _) => iteration_payloads reading
  | _ => [sensor_failure_message]
  end.

(** A world with nothing printed and nothing published. *)
Definition w0 : World := mkWorld [] [].

(** A broker that is never reachable: every publish returns
    [MQTT_ERR_NO_CONN]. *)
Definition unreachable_broker (_ : list (string * string)) : PublishOutcome :=
  Returned 4.

(** ** [read_environmental_data] ([main.py], lines 33-48) *)

(** The hardware is outside the program: [dht] is the pair that
    [Adafruit_DHT.read_retry] returned, [adc_value] the [value] of the
    [MCP3008] channel and [ldr_value] the [value] of the [LightSensor].
    The product with the int [1023] is the binary64 product with
    [1023.0]. *)
Definition read_environmental_data (dht : option float * option float)
    (adc_value ldr_value : float) : Reading :=
  let '(humidity, temperature) := dht in
  let soil_moisture := SFmul prec emax adc_value (of_int 1023) in
  let light_intensity := ldr_value in
  (humidity, temperature, soil_moisture, light_intensity).

(** ** The MQTT callbacks ([main.py], lines 50-61) *)

(** [str(n)] for a Python int. *)
Definition str_int (n : Z) : string :=
  if n <? 0 then "-" ++ digits (- n) else digits n.

Definition single_quote : ascii := ascii_of_nat 39.
Definition double_quote : ascii := ascii_of_nat 34.
Definition backslash : ascii := ascii_of_nat 92.

Fixpoint contains (c : ascii) (s : string) : bool :=
  match s with
  | EmptyString => false
  | String d rest => Ascii.eqb c d || contains c rest
  end.

Definition hex_digit (n : nat) : ascii :=
  nth n (list_ascii_of_string "0123456789abcdef") "0"%char.

(** How [repr] writes one byte of a [bytes] object delimited by [quote]. *)
Definition escape_byte (quote c : ascii) : string :=
  let n := nat_of_ascii c in
  if Ascii.eqb c quote || Ascii.eqb c backslash
  then String backslash (String c "")
  else if (n =? 9)%nat then String backslash "t"
  else if (n =? 10)%nat then String backslash "n"
  else if (n =? 13)%nat then String backslash "r"
  else if (n <? 32)%nat || (127 <=? n)%nat
  then String backslash
         (String "x" (String (hex_digit (n / 16))
                        (String (hex_digit (n mod 16)) "")))
  else String c "".

Fixpoint escape_bytes (quote : ascii) (b : string) : string :=
  match b with
  | EmptyString => ""
  | String c rest => escape_byte quote c ++ escape_bytes quote rest
  end.

(** [str(b)] for a [bytes] object [b], given as the string of its bytes: the
    literal [b'...'], delimited by double quotes when [b] holds a single
    quote and no double quote. *)
Definition str_bytes (b : string) : string :=
  let quote :=
    if contains single_quote b && negb (contains double_quote b)
    then double_quote else single_quote in
  String "b" (String quote (escape_bytes quote b ++ String quote "")).

(** A message delivered by the client: its topic, a [str], and its payload,
    a [bytes] object. *)
Record Message : Type := mkMessage {
  msg_topic : string;
  msg_payload : string
}.

(** [on_message(client, userdata, msg)] *)
Definition on_message (msg : Message) : M unit :=
  print (msg_topic msg ++ " " ++ str_bytes (msg_payload msg)).

(** The client seen from the callbacks: the world and the topics the
    program subscribed to, oldest first. *)
Record Session : Type := mkSession {
  world : World;
  subscriptions : list string
}.

(** [on_connect(client, userdata, flags, rc)] *)
Definition on_connect (rc : Z) (s : Session) : Session :=
  mkSession (snd (print ("Connected with result code " ++ str_int rc)
                    (world s)))
    (subscriptions s ++ [TOPIC])%list.

(** The message the client receives when the broker hands a publish call
    back on the subscription: the payload [str] arrives as its bytes, which
    for ASCII text are its characters. *)
Definition echoed (call : string * string) : Message :=
  mkMessage (fst call) (snd call).

(** ** Lines and bytes that need no escaping *)

(** Printable ASCII other than the single quote and the backslash. *)
Definition plain_char (c : ascii) : bool :=
  let n := nat_of_ascii c in
  (32 <=? n)%nat && (n <? 127)%nat
  && negb (Ascii.eqb c single_quote) && negb (Ascii.eqb c backslash).

Fixpoint plain (s : string) : bool :=
  match s with
  | EmptyString => true
  | String c rest => plain_char c && plain rest
  end.

(** A printed line that is an alert, not the sensor-failure diagnostic. *)
Definition is_alert (line : string) : bool :=
  negb (String.eqb line sensor_failure_message).

(** A broker whose [k]-th publish call raises [e] and whose other
    calls succeed. *)
Definition broker_raising_at (k : nat) (e : string)
    (calls : list (string * string)) : PublishOutcome :=
  if (List.length calls =? k)%nat then Raises e else Returned 0.

(** Two readings that differ at most in the value of a humidity that is
    present in both. *)
Definition same_but_humidity (r1 r2 : Reading) : Prop :=
  let '(humidity1, temperature1, soil_moisture1, light_intensity1) := r1 in
  let '(humidity2, temperature2, soil_moisture2, light_intensity2) := r2 in
  (humidity1 = None <-> humidity2 = None)
  /\ temperature1 = temperature2
  /\ soil_moisture1 = soil_moisture2
  /\ light_intensity1 = light_intensity2.

(** A reading whose DHT read failed. *)
Definition dht_failed (r : Reading) : Prop :=
  let '(humidity, temperature, _, _) := r in
  humidity = None \/ temperature = None.

(** ** Runs interrupted at any point *)

(** What the loop does to the world, one step at a time. *)
Inductive Effect : Type :=
| DoPrint (line : string)
| DoPublish (topic payload : string).

(** The effects of one iteration in the order of lines 93-99: the
    diagnostic of [send_alerts] when the DHT read failed, and otherwise,
    for each alert returned, its [print] and then its [publish]. *)
Definition iteration_effects (reading : Reading) : list Effect :=
  match reading with
  | (Some _, Some _, _, _) =>
      flat_map (fun alert => [DoPrint alert; DoPublish TOPIC alert])
        (iteration_payloads reading)
  | _ => [DoPrint sensor_failure_message]
  end.

(** Performing effects in turn; a publish that raises ends them. *)
Fixpoint perform (broker : list (string * string) -> PublishOutcome)
    (effects : list Effect) : M unit :=
  match effects with
  | [] => ret tt
  | DoPrint line :: rest => print line ;; perform broker rest
  | DoPublish topic payload :: rest =>
      client_publish broker topic payload ;; perform broker rest
  end.

(** The [try] statement of [main] in a run where [KeyboardInterrupt]
    arrives once [n] effects are done, be it between two iterations or
    between a [print(alert)] and its [client.publish]. *)
Definition main_run (broker : list (string * string) -> PublishOutcome)
    (n : nat) (readings : list Reading) (w : World) : World :=
  match perform broker
          (firstn n (List.concat (map iteration_effects readings))) w with
  | (Ok _, w') => snd (print "Terminating the program." w')
  | (Raised e, w') => snd (print ("An error occurred: " ++ e) w')
  end.



(** * Properties *)

(** ** The order of floats *)

Section FloatOrder.

Ltac order_cases :=
  repeat match goal with
    | |- context [Z.compare ?a ?b] => destruct (Z.compare_spec a b)
    | |- context [PosDef.Pos.compare_cont Eq ?a ?b] =>
        change (PosDef.Pos.compare_cont Eq a b) with (Pos.compare a b);
        destruct (Pos.compare_spec a b)
    | |- context [IntDef.Z.compare ?a ?b] =>
        change (IntDef.Z.compare a b) with (Z.compare a b);
        destruct (Z.compare_spec a b)
    end;
  cbn [CompOpp]; subst; try congruence; try lia.

Lemma SFcompare_antisym (x y : float) :
  SFcompare y x = option_map CompOpp (SFcompare x y).
Proof.
  destruct x as [sx | sx | | sx mx ex], y as [sy | sy | | sy my ey];
    simpl; try reflexivity;
    try (destruct sx; reflexivity); try (destruct sy; reflexivity);
    try (destruct sx, sy; reflexivity).
  destruct sx, sy; simpl; try reflexivity;
    f_equal; order_cases.
Qed.

Lemma SFcompare_trans (x y z : float) :
  SFcompare x y = Some Lt -> SFcompare y z = Some Lt ->
  SFcompare x z = Some Lt.
Proof.
  destruct x as [sx | sx | | sx mx ex], y as [sy | sy | | sy my ey],
    z as [sz | sz | | sz mz ez]; simpl; try congruence;
    try (destruct sx; simpl; congruence);
    try (destruct sy; simpl; congruence);
    try (destruct sz; simpl; congruence);
    try (destruct sx, sy; simpl; congruence);
    try (destruct sx, sz; simpl; congruence);
    try (destruct sy, sz; simpl; congruence);
    try (destruct sx, sy, sz; simpl; congruence).
  destruct sx, sy, sz; simpl; try congruence;
    order_cases.
Qed.

Lemma SFcompare_irrefl (x : float) : SFcompare x x <> Some Lt.
Proof.
  destruct x as [sx | sx | | sx mx ex]; simpl; try congruence.
  - destruct sx; congruence.
  - destruct sx; order_cases.
Qed.

Lemma lt_Lt (x y : float) : lt x y = true <-> SFcompare x y = Some Lt.
Proof.
  unfold lt, SFltb.
  destruct (SFcompare x y) as [[ | | ] | ]; split; congruence.
Qed.

Lemma gt_lt (x y : float) : gt x y = lt y x.
Proof. reflexivity. Qed.

Lemma lt_trans (x y z : float) :
  lt x y = true -> lt y z = true -> lt x z = true.
Proof. rewrite !lt_Lt. apply SFcompare_trans. Qed.

Lemma lt_irrefl (x : float) : lt x x = false.
Proof.
  destruct (lt x x) eqn:E; [ | reflexivity].
  apply lt_Lt in E. now apply SFcompare_irrefl in E.
Qed.

Lemma lt_asym (x y : float) : lt x y = true -> lt y x = false.
Proof.
  intros H. destruct (lt y x) eqn:E; [ | reflexivity].
  rewrite <- (lt_irrefl x). symmetry. now apply lt_trans with y.
Qed.

(** [x <= y] excludes [y < x]. *)
Lemma le_not_gt (x y : float) : le x y = true -> lt y x = false.
Proof.
  unfold le, lt, SFleb, SFltb. rewrite (SFcompare_antisym x y).
  destruct (SFcompare x y) as [[ | | ] | ]; simpl; congruence.
Qed.

(** [x == y] excludes both [x < y] and [y < x]. *)
Lemma eq_not_lt (x y : float) :
  eq x y = true -> lt x y = false /\ lt y x = false.
Proof.
  unfold eq, lt, SFeqb, SFltb. rewrite (SFcompare_antisym x y).
  destruct (SFcompare x y) as [[ | | ] | ]; simpl; split; congruence.
Qed.

(** The bounds of the temperature rule are ordered, so at most one of its
    two comparisons holds. *)
Lemma low_below_high : lt (of_int 15) (of_int 30) = true.
Proof. reflexivity. Qed.

Lemma above_high_not_below_low (t : float) :
  gt t (of_int 30) = true -> lt t (of_int 15) = false.
Proof.
  rewrite gt_lt. intros H.
  apply lt_asym. now apply lt_trans with (of_int 30); [apply low_below_high | ].
Qed.

End FloatOrder.

(** ** The [.2f] format *)

Section Format.

Lemma div_half_even_nearest (n d : Z) :
  0 <= n -> 0 < d ->
  0 <= div_half_even n d /\
  Z.abs (2 * n - 2 * div_half_even n d * d) <= d /\
  (Z.abs (2 * n - 2 * div_half_even n d * d) = d ->
   Z.even (div_half_even n d) = true).
Proof.
  intros Hn Hd. unfold div_half_even.
  pose proof (Z.div_mod n d ltac:(lia)) as Hdiv.
  pose proof (Z.mod_pos_bound n d Hd) as Hmod.
  pose proof (Z.div_pos n d Hn Hd) as Hq.
  set (q := n / d) in *. set (r := n mod d) in *.
  destruct (Z.compare_spec (2 * r) d) as [Heq | Hlt | Hgt].
  - destruct (Z.even q) eqn:Heven.
    + repeat split; [lia | nia | auto].
    + repeat split; [lia | nia | ].
      intros _. replace (q + 1) with (Z.succ q) by lia.
      rewrite Z.even_succ, <- Z.negb_even, Heven. reflexivity.
  - repeat split; [lia | nia | ]. intros Habs. exfalso. nia.
  - repeat split; [lia | nia | ]. intros Habs. exfalso. nia.
Qed.

Lemma hundredths_exact (m : positive) (e : Z) :
  0 <= e -> hundredths m e = 100 * Zpos m * 2 ^ e.
Proof. destruct e; [reflexivity | reflexivity | lia]. Qed.

(** Reading back what [digits] and [fixed2] print. *)
Lemma decimal_value_uint_acc (u : Decimal.uint) (acc : positive) :
  decimal_value (Zpos acc) (NilEmpty.string_of_uint u)
  = Some (Zpos (Pos.of_uint_acc u acc)).
Proof.
  revert acc.
  induction u; intros acc;
    cbn [NilEmpty.string_of_uint decimal_value Pos.of_uint_acc];
    [reflexivity | ..];
    match goal with
    | |- context [digit_value ?c] =>
        let v := eval vm_compute in (digit_value c) in
        change (digit_value c) with v
    end;
    cbv beta iota;
    match goal with
    | |- decimal_value ?a _ = Some (Zpos (Pos.of_uint_acc _ ?b)) =>
        replace a with (Zpos b) by lia
    end;
    apply IHu.
Qed.

Lemma decimal_value_uint (u : Decimal.uint) :
  decimal_value 0 (NilEmpty.string_of_uint u) = Some (Z.of_N (Pos.of_uint u)).
Proof.
  induction u; cbn [NilEmpty.string_of_uint decimal_value Pos.of_uint];
    [reflexivity | exact IHu | ..];
    apply (decimal_value_uint_acc u).
Qed.

Lemma split_at_point_uint (u : Decimal.uint) (rest : string) :
  split_at_point (NilEmpty.string_of_uint u ++ String "." rest)
  = Some (NilEmpty.string_of_uint u, rest).
Proof.
  induction u; cbn [NilEmpty.string_of_uint String.append split_at_point];
    [reflexivity | ..];
    match goal with
    | |- context [Ascii.eqb ?c "."] =>
        change (Ascii.eqb c ".") with false
    end;
    cbv beta iota; now rewrite IHu.
Qed.

(** [digits n] is a non-empty string of digits that denotes [n]. *)
Lemma digits_spec (n : Z) :
  0 <= n ->
  exists (c : ascii) (rest : string) (u : Decimal.uint),
    digits n = String c rest
    /\ digits n = NilEmpty.string_of_uint u
    /\ Ascii.eqb c "-" = false
    /\ decimal_value 0 (digits n) = Some n.
Proof.
  intros Hn. unfold digits, NilZero.string_of_uint.
  pose proof (DecimalN.Unsigned.of_to (Z.to_N n)) as Hof.
  unfold N.of_uint in Hof.
  destruct (N.to_uint (Z.to_N n)) as [ | u | u | u | u | u | u | u | u | u | u]
    eqn:E.
  - exists "0"%char, EmptyString, (Decimal.D0 Decimal.Nil).
    repeat split. cbn in Hof. change (decimal_value 0 "0") with (Some 0).
    f_equal. lia.
  - eexists _, _, (Decimal.D0 u). repeat split.
    rewrite decimal_value_uint, Hof. f_equal. lia.
  - eexists _, _, (Decimal.D1 u). repeat split.
    rewrite decimal_value_uint, Hof. f_equal. lia.
  - eexists _, _, (Decimal.D2 u). repeat split.
    rewrite decimal_value_uint, Hof. f_equal. lia.
  - eexists _, _, (Decimal.D3 u). repeat split.
    rewrite decimal_value_uint, Hof. f_equal. lia.
  - eexists _, _, (Decimal.D4 u). repeat split.
    rewrite decimal_value_uint, Hof. f_equal. lia.
  - eexists _, _, (Decimal.D5 u). repeat split.
    rewrite decimal_value_uint, Hof. f_equal. lia.
  - eexists _, _, (Decimal.D6 u). repeat split.
    rewrite decimal_value_uint, Hof. f_equal. lia.
  - eexists _, _, (Decimal.D7 u). repeat split.
    rewrite decimal_value_uint, Hof. f_equal. lia.
  - eexists _, _, (Decimal.D8 u). repeat split.
    rewrite decimal_value_uint, Hof. f_equal. lia.
  - eexists _, _, (Decimal.D9 u). repeat split.
    rewrite decimal_value_uint, Hof. f_equal. lia.
Qed.

(** A single digit is printed as its character. *)
Lemma digits_one (d : Z) :
  0 <= d < 10 ->
  exists c : ascii, digits d = String c EmptyString /\ digit_value c = Some d.
Proof.
  intros Hd.
  assert (Hcases : d = 0 \/ d = 1 \/ d = 2 \/ d = 3 \/ d = 4 \/ d = 5
                   \/ d = 6 \/ d = 7 \/ d = 8 \/ d = 9) by lia.
  repeat (destruct Hcases as [-> | Hcases]); [.. | subst d];
    eexists; split; reflexivity.
Qed.

Lemma hundredths_denoted_fixed2 (h : Z) :
  0 <= h -> hundredths_denoted (fixed2 h) = Some h.
Proof.
  intros Hh. unfold fixed2. cbv zeta.
  pose proof (Z.div_pos h 100 Hh ltac:(lia)) as Hq.
  pose proof (Z.mod_pos_bound h 100 ltac:(lia)) as Hc.
  pose proof (Z.div_mod h 100 ltac:(lia)) as Hdm.
  set (q := h / 100) in *. set (c := h mod 100) in *.
  pose proof (Z.div_mod c 10 ltac:(lia)) as Hdm'.
  pose proof (Z.mod_pos_bound c 10 ltac:(lia)) as Hb.
  assert (Ha : 0 <= c / 10 < 10).
  { split; [apply Z.div_pos; lia | apply Z.div_lt_upper_bound; lia]. }
  destruct (digits_spec q Hq) as (c0 & rest & u & Hhead & Huint & _ & Hvalue).
  destruct (digits_one (c / 10) Ha) as (d1 & -> & Hd1).
  destruct (digits_one (c mod 10) Hb) as (d2 & -> & Hd2).
  unfold hundredths_denoted.
  change ("." ++ String d1 "" ++ String d2 "")
    with (String "." (String d1 (String d2 EmptyString))).
  rewrite Huint at 1. rewrite split_at_point_uint, <- Huint, Hhead.
  rewrite <- Hhead, Hvalue, Hd1, Hd2. f_equal. lia.
Qed.

Lemma reads_as_format (sg : bool) (h : Z) :
  0 <= h -> reads_as (sign_str sg ++ fixed2 h) = Some (sg, h).
Proof.
  intros Hh. destruct sg; cbn [sign_str String.append reads_as].
  - change (Ascii.eqb "-" "-") with true. cbv iota.
    now rewrite hundredths_denoted_fixed2.
  - pose proof (hundredths_denoted_fixed2 h Hh) as Hden.
    destruct (digits_spec (h / 100) (Z.div_pos h 100 Hh ltac:(lia)))
      as (c0 & rest & _ & Hhead & _ & Hminus & _).
    unfold fixed2 in *. cbv zeta in *. rewrite Hhead in *.
    cbn [String.append reads_as]. rewrite Hminus.
    cbn [String.append] in Hden. now rewrite Hden.
Qed.

Lemma hundredths_nonneg (m : positive) (e : Z) : 0 <= hundredths m e.
Proof.
  destruct e as [ | p | p]; cbn [hundredths].
  - lia.
  - pose proof (Z.pow_nonneg 2 (Zpos p) ltac:(lia)). nia.
  - pose proof (Z.pow_pos_nonneg 2 (Zpos p) ltac:(lia) ltac:(lia)) as Hd.
    now destruct (div_half_even_nearest (100 * Zpos m) (2 ^ Zpos p)
                    ltac:(lia) Hd) as (H0 & _).
Qed.

(** [format_2f] prints a numeral that reads back as the sign of the float
    and the nearest count of hundredths. *)
Lemma format_2f_rendering (x : float) :
  two_decimal_rendering x (format_2f x).
Proof.
  destruct x as [sg | sg | | sg m e];
    cbn [two_decimal_rendering format_2f].
  - now destruct sg.
  - now destruct sg.
  - reflexivity.
  - exists (hundredths m e).
    split; [apply reads_as_format, hundredths_nonneg | ].
    split; [apply hundredths_nonneg | ].
    destruct (Z.le_gt_cases 0 e) as [Hpos | Hneg];
      [ | destruct e as [ | p | p]; try lia].
    + rewrite hundredths_exact, Z.max_l, Z.max_r by lia.
      pose proof (Z.pow_nonneg 2 e ltac:(lia)) as Hpow.
      cbv zeta. rewrite Z.pow_0_r.
      replace (200 * Zpos m * 2 ^ e - 2 * (100 * Zpos m * 2 ^ e) * 1)
        with 0 by ring.
      split; lia.
    + pose proof (Z.pow_pos_nonneg 2 (Zpos p) ltac:(lia) ltac:(lia)) as Hd.
      destruct (div_half_even_nearest (100 * Zpos m) (2 ^ Zpos p)
                  ltac:(lia) Hd) as (H0 & Hnear & Htie).
      rewrite Z.max_r, Z.max_l by lia.
      change (- Zneg p) with (Zpos p).
      change (hundredths m (Zneg p))
        with (div_half_even (100 * Zpos m) (2 ^ Zpos p)).
      cbv zeta. rewrite Z.pow_0_r.
      replace (200 * Zpos m * 1) with (2 * (100 * Zpos m)) by ring.
      split; assumption.
Qed.

End Format.

(** ** What [send_alerts] returns *)

Section SendAlerts.

Variables (humidity temperature soil_moisture light_intensity : float).

(** With both DHT values present, [send_alerts] leaves the world as it is
    and returns the three rules' alerts in the order moisture,
    temperature, light. *)
Lemma send_alerts_present (w : World) :
  send_alerts (Some humidity) (Some temperature) soil_moisture
    light_intensity w
  = (Ok (Some (evaluate_spec temperature soil_moisture light_intensity)), w).
Proof.
  unfold send_alerts, evaluate_spec, moisture_rule, temperature_rule,
    light_rule, ret, list_append.
  change (of_int MOISTURE_THRESHOLD) with (of_int 300).
  destruct (gt soil_moisture (of_int 300));
    destruct (lt temperature (of_int 15)) eqn:Hlow;
    destruct (gt temperature (of_int 30)) eqn:Hhigh;
    destruct (lt light_intensity (of_decimal 2 1));
    try reflexivity;
    apply above_high_not_below_low in Hhigh; congruence.
Qed.

(** Each rule yields alerts of its own kind only. *)
Lemma count_app (kind : string -> bool) (l1 l2 : list string) :
  count kind (l1 ++ l2) = (count kind l1 + count kind l2)%nat.
Proof. unfold count. now rewrite filter_app, length_app. Qed.

Lemma count_moisture_rule :
  count is_moisture_alert (moisture_rule soil_moisture)
  = if gt soil_moisture (of_int 300) then 1%nat else 0%nat.
Proof. unfold moisture_rule. now destruct (gt soil_moisture (of_int 300)). Qed.

Lemma count_temperature_rule :
  count is_temperature_alert (temperature_rule temperature)
  = if lt temperature (of_int 15) || gt temperature (of_int 30)
    then 1%nat else 0%nat.
Proof.
  unfold temperature_rule.
  now destruct (lt temperature (of_int 15)), (gt temperature (of_int 30)).
Qed.

Lemma count_light_rule :
  count is_light_alert (light_rule light_intensity)
  = if lt light_intensity (of_decimal 2 1) then 1%nat else 0%nat.
Proof.
  unfold light_rule. now destruct (lt light_intensity (of_decimal 2 1)).
Qed.

Lemma moisture_rule_other_kinds :
  count is_temperature_alert (moisture_rule soil_moisture) = 0%nat
  /\ count is_light_alert (moisture_rule soil_moisture) = 0%nat.
Proof. unfold moisture_rule. now destruct (gt soil_moisture (of_int 300)). Qed.

Lemma temperature_rule_other_kinds :
  count is_moisture_alert (temperature_rule temperature) = 0%nat
  /\ count is_light_alert (temperature_rule temperature) = 0%nat.
Proof.
  unfold temperature_rule.
  now destruct (lt temperature (of_int 15)), (gt temperature (of_int 30)).
Qed.

Lemma light_rule_other_kinds :
  count is_moisture_alert (light_rule light_intensity) = 0%nat
  /\ count is_temperature_alert (light_rule light_intensity) = 0%nat.
Proof.
  unfold light_rule. now destruct (lt light_intensity (of_decimal 2 1)).
Qed.

End SendAlerts.

Section Kinds.

Variables (temperature soil_moisture light_intensity : float).

Lemma count_moisture_alerts :
  count is_moisture_alert
    (evaluate_spec temperature soil_moisture light_intensity)
  = if gt soil_moisture (of_int 300) then 1%nat else 0%nat.
Proof.
  unfold evaluate_spec. rewrite !count_app, count_moisture_rule.
  destruct (temperature_rule_other_kinds temperature) as [-> _].
  destruct (light_rule_other_kinds light_intensity) as [-> _].
  lia.
Qed.

Lemma count_temperature_alerts :
  count is_temperature_alert
    (evaluate_spec temperature soil_moisture light_intensity)
  = if lt temperature (of_int 15) || gt temperature (of_int 30)
    then 1%nat else 0%nat.
Proof.
  unfold evaluate_spec. rewrite !count_app, count_temperature_rule.
  destruct (moisture_rule_other_kinds soil_moisture) as [-> _].
  destruct (light_rule_other_kinds light_intensity) as [_ ->].
  lia.
Qed.

Lemma count_light_alerts :
  count is_light_alert
    (evaluate_spec temperature soil_moisture light_intensity)
  = if lt light_intensity (of_decimal 2 1) then 1%nat else 0%nat.
Proof.
  unfold evaluate_spec. rewrite !count_app, count_light_rule.
  destruct (moisture_rule_other_kinds soil_moisture) as [_ ->].
  destruct (temperature_rule_other_kinds temperature) as [_ ->].
  lia.
Qed.

(** The temperature alerts among the returned ones are those of the
    temperature rule. *)
Lemma filter_temperature_alerts :
  filter is_temperature_alert
    (evaluate_spec temperature soil_moisture light_intensity)
  = temperature_rule temperature.
Proof.
  unfold evaluate_spec, moisture_rule, temperature_rule, light_rule.
  rewrite !filter_app.
  now destruct (gt soil_moisture (of_int 300)),
    (lt temperature (of_int 15)), (gt temperature (of_int 30)),
    (lt light_intensity (of_decimal 2 1)).
Qed.

End Kinds.

(** With the DHT reading missing, [send_alerts] prints the failure message
    and returns [None]. *)
Lemma send_alerts_absent (humidity temperature : option float)
    (soil_moisture light_intensity : float) (w : World) :
  humidity = None \/ temperature = None ->
  send_alerts humidity temperature soil_moisture light_intensity w
  = (Ok None,
     mkWorld (stdout w ++ [sensor_failure_message]) (publish_calls w)).
Proof.
  intros [-> | ->]; [ | destruct humidity]; reflexivity.
Qed.

(** ** The alert loop *)

Section LoopFacts.

Variable broker : list (string * string) -> PublishOutcome.

(** One turn of the [for] loop. *)
Lemma for_alert_in_cons (alert : string) (rest : list string) (w : World) :
  for_alert_in broker (alert :: rest) w
  = let calls := (publish_calls w ++ [(TOPIC, alert)])%list in
    let w' := mkWorld (stdout w ++ [alert]) calls in
    match broker calls with
    | Returned _ => for_alert_in broker rest w'
    | Raises e => (Raised e, w')
    end.
Proof.
  cbn [for_alert_in]. unfold bind, print, client_publish. cbn.
  now destruct (broker (publish_calls w ++ [(TOPIC, alert)])%list).
Qed.

(** While every publish returns, whatever its return code, the loop
    prints and publishes each alert in turn. *)
Lemma for_alert_in_returned (alerts : list string) (w : World) :
  (forall calls, exists rc, broker calls = Returned rc) ->
  for_alert_in broker alerts w
  = (Ok tt,
     mkWorld (stdout w ++ alerts)
       (publish_calls w ++ map (pair TOPIC) alerts)).
Proof.
  intros Hret. revert w.
  induction alerts as [ | alert rest IH]; intros w.
  - destruct w. cbn. unfold ret. now rewrite !app_nil_r.
  - rewrite for_alert_in_cons. cbv zeta.
    destruct (Hret (publish_calls w ++ [(TOPIC, alert)])%list) as [rc ->].
    rewrite IH. cbn. now rewrite <- !app_assoc.
Qed.

(** Whatever the broker does, the loop prints a prefix of the alerts: all
    of them when it ends normally, and those up to and including the one
    whose publish raised otherwise. *)
Lemma for_alert_in_printed (alerts : list string) (w : World) :
  exists k : nat,
    stdout (snd (for_alert_in broker alerts w))
    = (stdout w ++ firstn k alerts)%list
    /\ match fst (for_alert_in broker alerts w) with
       | Ok _ => k = List.length alerts
       | Raised _ => (1 <= k <= List.length alerts)%nat
       end.
Proof.
  revert w. induction alerts as [ | alert rest IH]; intros w.
  - exists 0%nat. cbn. now rewrite app_nil_r.
  - rewrite for_alert_in_cons. cbv zeta.
    destruct (broker (publish_calls w ++ [(TOPIC, alert)])%list) as [rc | e].
    + destruct (IH (mkWorld (stdout w ++ [alert])
                      (publish_calls w ++ [(TOPIC, alert)])))
        as (k & Hout & Hres).
      exists (S k). rewrite Hout. cbn [stdout firstn List.length].
      rewrite <- app_assoc. split; [reflexivity | ].
      destruct (fst (for_alert_in broker rest _)); lia.
    + exists 1%nat. cbn. split; [reflexivity | lia].
Qed.

Lemma loop_body_unfold (humidity temperature : option float)
    (soil_moisture light_intensity : float) (w : World) :
  loop_body broker (humidity, temperature, soil_moisture, light_intensity) w
  = match send_alerts humidity temperature soil_moisture light_intensity w
    with
    | (Ok alerts, w') =>
        if truthy alerts then for_alert_in broker (items alerts) w'
        else (Ok tt, w')
    | (Raised e, w') => (Raised e, w')
    end.
Proof.
  unfold loop_body, bind.
  destruct (send_alerts humidity temperature soil_moisture light_intensity w)
    as [[alerts | e] w']; [ | reflexivity].
  now destruct (truthy alerts).
Qed.

Section Returning.

Hypothesis broker_returns : forall calls, exists rc, broker calls = Returned rc.

Lemma loop_body_returned (reading : Reading) (w : World) :
  loop_body broker reading w
  = (Ok tt,
     mkWorld (stdout w ++ iteration_lines reading)
       (publish_calls w ++ map (pair TOPIC) (iteration_payloads reading))).
Proof.
  destruct reading as [[[humidity temperature] soil_moisture] light_intensity].
  rewrite loop_body_unfold.
  destruct humidity as [h | ], temperature as [t | ];
    try (rewrite send_alerts_absent by auto; destruct w; cbn;
         now rewrite app_nil_r).
  rewrite send_alerts_present. cbn [iteration_lines iteration_payloads].
  destruct (evaluate_spec t soil_moisture light_intensity) as [ | a l] eqn:E.
  - destruct w. cbn. now rewrite !app_nil_r.
  - cbn [truthy items]. now rewrite for_alert_in_returned.
Qed.

(** Over any number of iterations nothing that was produced is missing
    from the local output stream. *)
Lemma while_true_returned (readings : list Reading) (w : World) :
  while_true broker readings w
  = (Ok tt,
     mkWorld (stdout w ++ List.concat (map iteration_lines readings))
       (publish_calls w
        ++ map (pair TOPIC)
             (List.concat (map iteration_payloads readings)))).
Proof.
  revert w. induction readings as [ | reading rest IH]; intros w.
  - destruct w. cbn. unfold ret. now rewrite !app_nil_r.
  - cbn [while_true]. unfold bind. rewrite loop_body_returned, IH.
    cbn. now rewrite map_app, <- !app_assoc.
Qed.

(** The program then runs until it is interrupted, and every line of every
    iteration is on the local output stream when it ends. *)
Lemma main_loop_returned (readings : list Reading) (w : World) :
  stdout (main_loop broker readings w)
  = (stdout w ++ List.concat (map iteration_lines readings)
     ++ ["Terminating the program."])%list.
Proof.
  unfold main_loop. rewrite while_true_returned. cbn.
  now rewrite <- app_assoc.
Qed.

End Returning.

End LoopFacts.

(** ** The scenarios of the specification *)

Example scenario_A :
  send_alerts (Some (of_int 50)) (Some (of_int 10)) (of_int 200)
    (of_decimal 5 1) w0
  = (Ok (Some ["Temperature is too low. Current temp: 10.00 C"]), w0).
Proof. reflexivity. Qed.

Example scenario_B :
  send_alerts (Some (of_int 40)) (Some (of_int 22)) (of_int 400)
    (of_decimal 1 1) w0
  = (Ok (Some [soil_dry_alert; low_light_alert]), w0).
Proof. reflexivity. Qed.

Example scenario_C :
  send_alerts None None (of_int 999) (of_decimal 1 2) w0
  = (Ok None, mkWorld [sensor_failure_message] []).
Proof. reflexivity. Qed.

Example scenario_D :
  send_alerts (Some (of_int 45)) (Some (of_int 22)) (of_int 100)
    (of_decimal 5 1) w0
  = (Ok (Some []), w0).
Proof. reflexivity. Qed.

(** The constants of the rules are binary64 values; [0.2] is the float
    [7205759403792794 * 2^-55], slightly above one fifth. *)
Example thresholds_are_floats :
  is_valid (of_int 300) = true /\ is_valid (of_int 15) = true
  /\ is_valid (of_int 30) = true /\ is_valid (of_decimal 2 1) = true
  /\ of_decimal 2 1 = S754_finite false 7205759403792794 (-55).
Proof. repeat split. Qed.

(** ** The claims *)

(** C1, as stated, fails: for the snapshot of scenario C (humidity and
    temperature absent, soil moisture 999, light 0.01) [send_alerts] does not
    return a sequence holding one diagnostic alert; it returns [None]. *)
Lemma C1_no_diagnostic_alert_returned :
  ~ (exists alert : string,
        fst (send_alerts None None (of_int 999) (of_decimal 1 2) w0)
        = Ok (Some [alert])).
Proof. intros [alert H]. discriminate H. Qed.

(** C1, amended: for every snapshot in which temperature or humidity is
    absent, whatever the soil-moisture and light-intensity values,
    [send_alerts] returns [None] (no sequence of alerts, so no threshold
    alert), writes exactly one line, the sensor-failure diagnostic, to the
    local output stream, and publishes nothing. *)
Theorem C1_absent_reading_diagnostic_printed
    (humidity temperature : option float)
    (soil_moisture light_intensity : float) (w : World) :
  humidity = None \/ temperature = None ->
  let r := send_alerts humidity temperature soil_moisture light_intensity w in
  fst r = Ok None
  /\ stdout (snd r) = (stdout w ++ [sensor_failure_message])%list
  /\ publish_calls (snd r) = publish_calls w.
Proof.
  intros Habsent r. subst r.
  rewrite (send_alerts_absent _ _ _ _ _ Habsent). repeat split.
Qed.

Lemma C1_absent_reading_witness :
  (Some (of_int 40) = None \/ @None float = None)
  /\ (let r := send_alerts (Some (of_int 40)) None (of_int 999)
                 (of_decimal 1 2) w0 in
      fst r = Ok None
      /\ stdout (snd r) = (stdout w0 ++ [sensor_failure_message])%list
      /\ publish_calls (snd r) = publish_calls w0).
Proof.
  split; [right; reflexivity | ].
  apply (C1_absent_reading_diagnostic_printed (Some (of_int 40)) None).
  right; reflexivity.
Defined.

(** C2: for every snapshot with temperature and humidity present,
    [send_alerts] returns exactly one soil-moisture alert when
    [soil_moisture > 300] and none otherwise. *)
Theorem C2_moisture_alert (humidity temperature soil_moisture
    light_intensity : float) (w : World) :
  exists alerts : list string,
    send_alerts (Some humidity) (Some temperature) soil_moisture
      light_intensity w = (Ok (Some alerts), w)
    /\ count is_moisture_alert alerts
       = if gt soil_moisture (of_int 300) then 1%nat else 0%nat.
Proof.
  eexists. split; [apply send_alerts_present | apply count_moisture_alerts].
Qed.

(** C3: for every snapshot with temperature and humidity present and
    [temperature < 15] or [temperature > 30], [send_alerts] returns exactly
    one temperature alert; it says "too low" below 15 and "too high" above
    30, and the text it carries between "Current temp: " and " C" is the
    temperature to two decimals: read back as a numeral it has the sign of
    the temperature and denotes the count of hundredths nearest to its
    magnitude. *)
Theorem C3_temperature_alert (humidity temperature soil_moisture
    light_intensity : float) (w : World) :
  lt temperature (of_int 15) = true \/ gt temperature (of_int 30) = true ->
  exists (alerts : list string) (wording value : string),
    send_alerts (Some humidity) (Some temperature) soil_moisture
      light_intensity w = (Ok (Some alerts), w)
    /\ count is_temperature_alert alerts = 1%nat
    /\ filter is_temperature_alert alerts
       = ["Temperature is " ++ wording ++ ". Current temp: " ++ value ++ " C"]
    /\ (lt temperature (of_int 15) = true -> wording = "too low")
    /\ (gt temperature (of_int 30) = true -> wording = "too high")
    /\ two_decimal_rendering temperature value.
Proof.
  intros Hout.
  exists (evaluate_spec temperature soil_moisture light_intensity),
    (if lt temperature (of_int 15) then "too low" else "too high"),
    (format_2f temperature).
  split; [apply send_alerts_present | ].
  split.
  { rewrite count_temperature_alerts.
    destruct Hout as [-> | ->]; [reflexivity | now rewrite orb_true_r]. }
  split.
  { rewrite filter_temperature_alerts. unfold temperature_rule.
    destruct Hout as [Hlow | Hhigh].
    - now rewrite Hlow.
    - now rewrite (above_high_not_below_low _ Hhigh), Hhigh. }
  split; [now intros -> | ].
  split; [intros Hhigh; now rewrite (above_high_not_below_low _ Hhigh) | ].
  apply format_2f_rendering.
Qed.

Lemma C3_temperature_alert_witness :
  (lt (of_decimal 3567 2) (of_int 15) = true
   \/ gt (of_decimal 3567 2) (of_int 30) = true)
  /\ (exists (alerts : list string) (wording value : string),
        send_alerts (Some (of_int 45)) (Some (of_decimal 3567 2)) (of_int 100)
          (of_decimal 5 1) w0 = (Ok (Some alerts), w0)
        /\ count is_temperature_alert alerts = 1%nat
        /\ filter is_temperature_alert alerts
           = ["Temperature is " ++ wording ++ ". Current temp: " ++ value
              ++ " C"]
        /\ (lt (of_decimal 3567 2) (of_int 15) = true -> wording = "too low")
        /\ (gt (of_decimal 3567 2) (of_int 30) = true -> wording = "too high")
        /\ two_decimal_rendering (of_decimal 3567 2) value)
  /\ send_alerts (Some (of_int 45)) (Some (of_decimal 3567 2)) (of_int 100)
       (of_decimal 5 1) w0
     = (Ok (Some ["Temperature is too high. Current temp: 35.67 C"]), w0)
  /\ reads_as "35.67" = Some (false, 3567).
Proof.
  split; [right; reflexivity | ].
  split; [ | split; reflexivity].
  apply (C3_temperature_alert (of_int 45) (of_decimal 3567 2) (of_int 100)
           (of_decimal 5 1) w0).
  right; reflexivity.
Defined.

(** C4: for every snapshot with temperature and humidity present,
    [send_alerts] returns exactly one light alert when
    [light_intensity < 0.2] and none otherwise. *)
Theorem C4_light_alert (humidity temperature soil_moisture
    light_intensity : float) (w : World) :
  exists alerts : list string,
    send_alerts (Some humidity) (Some temperature) soil_moisture
      light_intensity w = (Ok (Some alerts), w)
    /\ count is_light_alert alerts
       = if lt light_intensity (of_decimal 2 1) then 1%nat else 0%nat.
Proof.
  eexists. split; [apply send_alerts_present | apply count_light_alerts].
Qed.

(** C5: for every snapshot with temperature and humidity present, soil
    moisture not above 300, temperature within [15, 30] and light intensity
    not below 0.2, [send_alerts] returns the empty list. *)
Theorem C5_within_bounds_no_alert (humidity temperature soil_moisture
    light_intensity : float) (w : World) :
  gt soil_moisture (of_int 300) = false ->
  le (of_int 15) temperature = true ->
  le temperature (of_int 30) = true ->
  lt light_intensity (of_decimal 2 1) = false ->
  send_alerts (Some humidity) (Some temperature) soil_moisture
    light_intensity w = (Ok (Some []), w).
Proof.
  intros Hsoil Hlow Hhigh Hlight.
  rewrite send_alerts_present.
  unfold evaluate_spec, moisture_rule, temperature_rule, light_rule.
  rewrite Hsoil, Hlight, (le_not_gt _ _ Hlow).
  rewrite gt_lt, (le_not_gt _ _ Hhigh). reflexivity.
Qed.

Lemma C5_within_bounds_witness :
  gt (of_int 100) (of_int 300) = false
  /\ le (of_int 15) (of_int 22) = true
  /\ le (of_int 22) (of_int 30) = true
  /\ lt (of_decimal 5 1) (of_decimal 2 1) = false
  /\ send_alerts (Some (of_int 45)) (Some (of_int 22)) (of_int 100)
       (of_decimal 5 1) w0 = (Ok (Some []), w0).
Proof.
  do 4 (split; [reflexivity | ]).
  apply (C5_within_bounds_no_alert (of_int 45) (of_int 22) (of_int 100)
           (of_decimal 5 1) w0); reflexivity.
Defined.

(** C6: with temperature and humidity present the three rules fire
    independently of one another and the alerts come in the order moisture,
    temperature, light; in particular with [soil_moisture > 300] and
    [light_intensity < 0.2] the soil-dry alert comes first and the low-light
    alert last, with only the temperature rule's alert, if any, between. *)
Theorem C6_rules_independent_in_order (humidity temperature soil_moisture
    light_intensity : float) (w : World) :
  send_alerts (Some humidity) (Some temperature) soil_moisture
    light_intensity w
  = (Ok (Some (moisture_rule soil_moisture ++ temperature_rule temperature
               ++ light_rule light_intensity)%list), w)
  /\ (gt soil_moisture (of_int 300) = true ->
      lt light_intensity (of_decimal 2 1) = true ->
      send_alerts (Some humidity) (Some temperature) soil_moisture
        light_intensity w
      = (Ok (Some (soil_dry_alert
                   :: temperature_rule temperature ++ [low_light_alert])%list),
         w)).
Proof.
  split; [apply send_alerts_present | ].
  intros Hsoil Hlight. rewrite send_alerts_present.
  unfold evaluate_spec, moisture_rule, light_rule.
  now rewrite Hsoil, Hlight.
Qed.

Lemma C6_rules_in_order_witness :
  gt (of_int 400) (of_int 300) = true
  /\ lt (of_decimal 1 1) (of_decimal 2 1) = true
  /\ send_alerts (Some (of_int 40)) (Some (of_int 22)) (of_int 400)
       (of_decimal 1 1) w0
     = (Ok (Some (soil_dry_alert
                  :: temperature_rule (of_int 22) ++ [low_light_alert])%list),
        w0).
Proof.
  do 2 (split; [reflexivity | ]).
  apply (C6_rules_independent_in_order (of_int 40) (of_int 22) (of_int 400)
           (of_decimal 1 1) w0); reflexivity.
Defined.

(** C7, as stated, fails: [send_alerts] is not pure.  On the snapshot of
    scenario C it changes the world it runs in, leaving one more line on
    the local output stream. *)
Lemma C7_send_alerts_has_an_effect :
  snd (send_alerts None None (of_int 999) (of_decimal 1 2) w0) <> w0
  /\ stdout (snd (send_alerts None None (of_int 999) (of_decimal 1 2) w0))
     = [sensor_failure_message].
Proof. split; [discriminate | reflexivity]. Qed.

(** C7, amended: what [send_alerts] returns is fixed by the snapshot and
    the threshold constants, in whatever world it runs: [None] when
    humidity or temperature is absent, and otherwise the alerts that the
    three rules give for the temperature, the soil moisture and the light
    intensity.  It has no effect when both are present; when one is absent
    it is not pure: it also writes the diagnostic line to the local output
    stream, and does nothing else. *)
Theorem C7_send_alerts_result_and_effect (humidity temperature : option float)
    (soil_moisture light_intensity : float) (w : World) :
  send_alerts humidity temperature soil_moisture light_intensity w
  = match humidity, temperature with
    | Some _, Some present =>
        (Ok (Some (moisture_rule soil_moisture ++ temperature_rule present
                   ++ light_rule light_intensity)%list), w)
    | _, _ =>
        (Ok None,
         mkWorld (stdout w ++ ["Failed to retrieve data from DHT sensor"])
           (publish_calls w))
    end.
Proof.
  destruct humidity as [h | ], temperature as [t | ].
  - apply send_alerts_present.
  - now apply send_alerts_absent; right.
  - now apply send_alerts_absent; left.
  - now apply send_alerts_absent; left.
Qed.

(** C8: in a loop iteration, whatever return code each publish gives
    (success or failure), every alert of the list that [send_alerts]
    returned is written to the local output stream, in order, after what
    [send_alerts] itself printed. *)
Theorem C8_alerts_written_locally
    (broker : list (string * string) -> PublishOutcome)
    (humidity temperature : option float)
    (soil_moisture light_intensity : float) (w : World) :
  (forall calls, exists rc : Z, broker calls = Returned rc) ->
  exists (returned : option (list string)) (w1 w2 : World),
    send_alerts humidity temperature soil_moisture light_intensity w
    = (Ok returned, w1)
    /\ loop_body broker
         (humidity, temperature, soil_moisture, light_intensity) w
       = (Ok tt, w2)
    /\ stdout w2
       = (stdout w1
          ++ match returned with
             | Some alerts => alerts
             | None => []
             end)%list.
Proof.
  intros Hret. rewrite loop_body_unfold.
  destruct (send_alerts humidity temperature soil_moisture light_intensity w)
    as [[returned | e] w1] eqn:Hsend.
  - exists returned, w1.
    destruct returned as [[ | alert rest] | ]; cbn [truthy items].
    + exists w1. now rewrite app_nil_r.
    + rewrite (for_alert_in_returned broker _ _ Hret).
      eexists. repeat split.
    + exists w1. now rewrite app_nil_r.
  - exfalso. revert Hsend. unfold send_alerts.
    destruct humidity, temperature; discriminate.
Qed.

Lemma C8_alerts_written_witness :
  (forall calls, exists rc : Z, unreachable_broker calls = Returned rc)
  /\ (exists (returned : option (list string)) (w1 w2 : World),
        send_alerts (Some (of_int 40)) (Some (of_int 22)) (of_int 400)
          (of_decimal 1 1) w0 = (Ok returned, w1)
        /\ loop_body unreachable_broker
             (Some (of_int 40), Some (of_int 22), of_int 400, of_decimal 1 1)
             w0
           = (Ok tt, w2)
        /\ stdout w2
           = (stdout w1
              ++ match returned with
                 | Some alerts => alerts
                 | None => []
                 end)%list)
  /\ stdout
       (snd (loop_body unreachable_broker
               (Some (of_int 40), Some (of_int 22), of_int 400,
                of_decimal 1 1) w0))
     = ["Soil is too dry. Consider watering the plant.";
        "Plant needs more light."].
Proof.
  split; [intros calls; exists 4; reflexivity | ].
  split; [ | reflexivity].
  apply (C8_alerts_written_locally unreachable_broker (Some (of_int 40))
           (Some (of_int 22)) (of_int 400) (of_decimal 1 1) w0).
  intros calls; exists 4; reflexivity.
Defined.

(** C9: when humidity or temperature is [None], [send_alerts] prints the
    failure message and returns [None]; the loop body then publishes
    nothing, so the diagnostic reaches the local output stream only. *)
Theorem C9_absent_reading_not_published
    (broker : list (string * string) -> PublishOutcome)
    (humidity temperature : option float)
    (soil_moisture light_intensity : float) (w : World) :
  humidity = None \/ temperature = None ->
  send_alerts humidity temperature soil_moisture light_intensity w
  = (Ok None, mkWorld (stdout w ++ [sensor_failure_message]) (publish_calls w))
  /\ loop_body broker (humidity, temperature, soil_moisture, light_intensity) w
     = (Ok tt,
        mkWorld (stdout w ++ [sensor_failure_message]) (publish_calls w)).
Proof.
  intros Habsent. rewrite loop_body_unfold.
  rewrite (send_alerts_absent _ _ _ _ _ Habsent). split; reflexivity.
Qed.

Lemma C9_absent_reading_witness :
  (@None float = None \/ @None float = None)
  /\ send_alerts None None (of_int 999) (of_decimal 1 2) w0
     = (Ok None,
        mkWorld (stdout w0 ++ [sensor_failure_message]) (publish_calls w0))
  /\ loop_body unreachable_broker (None, None, of_int 999, of_decimal 1 2) w0
     = (Ok tt,
        mkWorld (stdout w0 ++ [sensor_failure_message]) (publish_calls w0)).
Proof.
  split; [left; reflexivity | ].
  apply (C9_absent_reading_not_published unreachable_broker None None
           (of_int 999) (of_decimal 1 2) w0).
  left; reflexivity.
Defined.

(** C10: the comparisons are strict: with temperature and humidity present,
    a soil moisture equal to 300 gives no moisture alert, a temperature
    equal to 15 or to 30 no temperature alert, and a light intensity equal
    to 0.2 no light alert. *)
Theorem C10_boundaries_raise_no_alert (humidity temperature soil_moisture
    light_intensity : float) (w : World) :
  exists alerts : list string,
    send_alerts (Some humidity) (Some temperature) soil_moisture
      light_intensity w = (Ok (Some alerts), w)
    /\ (eq soil_moisture (of_int 300) = true ->
        count is_moisture_alert alerts = 0%nat)
    /\ (eq temperature (of_int 15) = true \/ eq temperature (of_int 30) = true ->
        count is_temperature_alert alerts = 0%nat)
    /\ (eq light_intensity (of_decimal 2 1) = true ->
        count is_light_alert alerts = 0%nat).
Proof.
  exists (evaluate_spec temperature soil_moisture light_intensity).
  split; [apply send_alerts_present | ].
  rewrite count_moisture_alerts, count_temperature_alerts, count_light_alerts.
  repeat split.
  - intros Heq. apply eq_not_lt in Heq as [_ Hgt].
    rewrite gt_lt. now rewrite Hgt.
  - rewrite gt_lt. intros [Heq | Heq]; apply eq_not_lt in Heq as [Hlt Hgt].
    + rewrite Hlt. cbn [orb].
      destruct (lt (of_int 30) temperature) eqn:Habove; [ | reflexivity].
      rewrite (lt_trans _ _ _ low_below_high Habove) in Hgt. discriminate.
    + rewrite Hgt, orb_false_r.
      destruct (lt temperature (of_int 15)) eqn:Hbelow; [ | reflexivity].
      rewrite (lt_trans _ _ _ Hbelow low_below_high) in Hlt. discriminate.
  - intros Heq. apply eq_not_lt in Heq as [Hlt _]. now rewrite Hlt.
Qed.

Lemma C10_boundaries_witness :
  eq (of_int 300) (of_int 300) = true
  /\ eq (of_int 30) (of_int 30) = true
  /\ eq (of_decimal 2 1) (of_decimal 2 1) = true
  /\ exists alerts : list string,
      send_alerts (Some (of_int 50)) (Some (of_int 30)) (of_int 300)
        (of_decimal 2 1) w0 = (Ok (Some alerts), w0)
      /\ count is_moisture_alert alerts = 0%nat
      /\ count is_temperature_alert alerts = 0%nat
      /\ count is_light_alert alerts = 0%nat.
Proof.
  do 3 (split; [reflexivity | ]).
  destruct (C10_boundaries_raise_no_alert (of_int 50) (of_int 30) (of_int 300)
              (of_decimal 2 1) w0) as (alerts & Hsend & Hsoil & Htemp & Hlight).
  exists alerts. split; [exact Hsend | ].
  split; [apply Hsoil; reflexivity | ].
  split; [apply Htemp; right; reflexivity | apply Hlight; reflexivity].
Defined.


(** * Further properties of the code *)

(** ** [send_alerts]: size of the result, humidity, NaN readings *)

Lemma evaluate_spec_cases (temperature soil_moisture light_intensity : float) :
  exists (soil temp light : bool) (wording : string),
    evaluate_spec temperature soil_moisture light_intensity
    = ((if soil then [soil_dry_alert] else [])
       ++ (if temp then [temperature_alert wording temperature] else [])
       ++ (if light then [low_light_alert] else []))%list.
Proof.
  unfold evaluate_spec, moisture_rule, temperature_rule, light_rule.
  exists (gt soil_moisture (of_int 300)),
    (lt temperature (of_int 15) || gt temperature (of_int 30)),
    (lt light_intensity (of_decimal 2 1)),
    (if lt temperature (of_int 15) then "too low" else "too high").
  now destruct (lt temperature (of_int 15)), (gt temperature (of_int 30)).
Qed.

(** X1: One call of [send_alerts] returns at most three alerts, and never the
    same alert twice. *)
Theorem send_alerts_at_most_three_distinct (humidity temperature
    soil_moisture light_intensity : float) (w : World) :
  exists alerts : list string,
    send_alerts (Some humidity) (Some temperature) soil_moisture
      light_intensity w = (Ok (Some alerts), w)
    /\ (List.length alerts <= 3)%nat
    /\ NoDup alerts.
Proof.
  exists (evaluate_spec temperature soil_moisture light_intensity).
  split; [apply send_alerts_present | ].
  destruct (evaluate_spec_cases temperature soil_moisture light_intensity)
    as (soil & temp & light & wording & ->).
  assert (Hst : soil_dry_alert <> temperature_alert wording temperature)
    by discriminate.
  assert (Hsl : soil_dry_alert <> low_light_alert) by discriminate.
  assert (Htl : temperature_alert wording temperature <> low_light_alert)
    by discriminate.
  destruct soil, temp, light; cbn [app List.length]; split; try lia;
    repeat (constructor; [cbn [In]; intuition congruence | ]); constructor.
Qed.

(** The humidity is only tested for presence. *)
Lemma send_alerts_ignores_humidity_value (humidity humidity' : float)
    (temperature : option float) (soil_moisture light_intensity : float)
    (w : World) :
  send_alerts (Some humidity) temperature soil_moisture light_intensity w
  = send_alerts (Some humidity') temperature soil_moisture light_intensity w.
Proof. destruct temperature; reflexivity. Qed.

(** X2: A NaN compares false with everything, so a reading that is NaN raises
    no alert of its rule: NaN soil moisture, temperature or light intensity
    go unreported. *)
Theorem send_alerts_nan_is_silent (humidity temperature soil_moisture
    light_intensity : float) (w : World) :
  exists alerts : list string,
    send_alerts (Some humidity) (Some temperature) soil_moisture
      light_intensity w = (Ok (Some alerts), w)
    /\ (soil_moisture = S754_nan -> count is_moisture_alert alerts = 0%nat)
    /\ (temperature = S754_nan -> count is_temperature_alert alerts = 0%nat)
    /\ (light_intensity = S754_nan -> count is_light_alert alerts = 0%nat).
Proof.
  exists (evaluate_spec temperature soil_moisture light_intensity).
  split; [apply send_alerts_present | ].
  rewrite count_moisture_alerts, count_temperature_alerts, count_light_alerts.
  repeat split; intros ->; reflexivity.
Qed.

Lemma send_alerts_nan_is_silent_witness :
  exists alerts : list string,
    send_alerts (Some (of_int 50)) (Some S754_nan) S754_nan S754_nan w0
    = (Ok (Some alerts), w0)
    /\ count is_moisture_alert alerts = 0%nat
    /\ count is_temperature_alert alerts = 0%nat
    /\ count is_light_alert alerts = 0%nat.
Proof.
  destruct (send_alerts_nan_is_silent (of_int 50) S754_nan S754_nan S754_nan w0)
    as (alerts & Hsend & Hsoil & Htemp & Hlight).
  exists alerts. split; [exact Hsend | ].
  split; [apply Hsoil; reflexivity | ].
  split; [apply Htemp; reflexivity | apply Hlight; reflexivity].
Defined.

(** ** The loop under any broker *)

Lemma in_firstn {A : Type} (k : nat) (l : list A) (x : A) :
  In x (firstn k l) -> In x l.
Proof.
  intros Hin. rewrite <- (firstn_skipn k l). apply in_or_app. now left.
Qed.

Lemma filter_firstn_all {A : Type} (f : A -> bool) (k : nat) (l : list A) :
  forallb f l = true -> filter f (firstn k l) = firstn k l.
Proof.
  intros Hall. apply forallb_filter_id. apply forallb_forall.
  intros x Hin. rewrite forallb_forall in Hall.
  apply Hall. now apply in_firstn with k.
Qed.

(** No alert reads like the sensor-failure diagnostic. *)
Lemma evaluate_spec_is_alert (temperature soil_moisture light_intensity : float) :
  forallb is_alert (evaluate_spec temperature soil_moisture light_intensity)
  = true.
Proof.
  destruct (evaluate_spec_cases temperature soil_moisture light_intensity)
    as (soil & temp & light & wording & ->).
  now destruct soil, temp, light.
Qed.

Lemma iteration_lines_length (reading : Reading) :
  (List.length (iteration_lines reading) <= 3)%nat.
Proof.
  destruct reading as [[[[h | ] [t | ]] soil_moisture] light_intensity];
    cbn [iteration_lines iteration_payloads List.length]; try lia.
  destruct (evaluate_spec_cases t soil_moisture light_intensity)
    as (soil & temp & light & wording & ->).
  destruct soil, temp, light; cbn; lia.
Qed.

Section LoopTrace.

Variable broker : list (string * string) -> PublishOutcome.

(** The [for] loop prints and publishes the same prefix of the alerts, and
    when it raises, the publish that raised is the last call made. *)
Lemma for_alert_in_trace (alerts : list string) (w : World) :
  exists k : nat,
    (k <= List.length alerts)%nat
    /\ snd (for_alert_in broker alerts w)
       = mkWorld (stdout w ++ firstn k alerts)
           (publish_calls w ++ map (pair TOPIC) (firstn k alerts))
    /\ match fst (for_alert_in broker alerts w) with
       | Ok _ => k = List.length alerts
       | Raised e =>
           broker (publish_calls w ++ map (pair TOPIC) (firstn k alerts))
           = Raises e
       end.
Proof.
  revert w. induction alerts as [ | alert rest IH]; intros w.
  - exists 0%nat. destruct w. cbn. now rewrite !app_nil_r.
  - rewrite for_alert_in_cons. cbv zeta.
    destruct (broker (publish_calls w ++ [(TOPIC, alert)])%list)
      as [rc | e] eqn:Hcall.
    + destruct (IH (mkWorld (stdout w ++ [alert])
                      (publish_calls w ++ [(TOPIC, alert)])))
        as (k & Hk & Hworld & Hres).
      exists (S k). cbn [List.length firstn map stdout publish_calls] in *.
      repeat rewrite <- app_assoc in Hworld. repeat rewrite <- app_assoc in Hres.
      cbn [app] in Hworld, Hres.
      split; [lia | ]. split; [exact Hworld | ].
      destruct (fst (for_alert_in broker rest _)); [lia | exact Hres].
    + exists 1%nat. cbn [List.length firstn map fst snd]. split; [lia | ].
      split; [reflexivity | exact Hcall].
Qed.

(** One iteration prints a prefix of its lines and publishes, on [TOPIC],
    the alerts among them. *)
Lemma loop_body_trace (reading : Reading) (w : World) :
  exists k : nat,
    (k <= List.length (iteration_lines reading))%nat
    /\ snd (loop_body broker reading w)
       = mkWorld (stdout w ++ firstn k (iteration_lines reading))
           (publish_calls w
            ++ map (pair TOPIC)
                 (filter is_alert (firstn k (iteration_lines reading))))
    /\ match fst (loop_body broker reading w) with
       | Ok _ => k = List.length (iteration_lines reading)
       | Raised e =>
           broker (publish_calls (snd (loop_body broker reading w)))
           = Raises e
       end.
Proof.
  destruct reading as [[[humidity temperature] soil_moisture] light_intensity].
  rewrite loop_body_unfold.
  destruct humidity as [h | ], temperature as [t | ];
    try (rewrite send_alerts_absent by auto; exists 1%nat; destruct w; cbn;
         rewrite app_nil_r; repeat split; try lia).
  rewrite send_alerts_present. cbn [iteration_lines iteration_payloads].
  pose proof (evaluate_spec_is_alert t soil_moisture light_intensity) as Hall.
  destruct (evaluate_spec t soil_moisture light_intensity) as [ | a l] eqn:E.
  - exists 0%nat. destruct w. cbn. rewrite !app_nil_r. repeat split. lia.
  - cbn [truthy items].
    destruct (for_alert_in_trace (a :: l) w) as (k & Hk & Hworld & Hres).
    exists k. rewrite (filter_firstn_all _ _ _ Hall).
    split; [exact Hk | ]. split; [exact Hworld | ].
    destruct (fst (for_alert_in broker (a :: l) w)); [exact Hres | ].
    rewrite Hworld. exact Hres.
Qed.

(** The same over the whole [while True] loop. *)
Lemma while_true_trace (readings : list Reading) (w : World) :
  exists k : nat,
    snd (while_true broker readings w)
    = mkWorld
        (stdout w ++ firstn k (List.concat (map iteration_lines readings)))
        (publish_calls w
         ++ map (pair TOPIC)
              (filter is_alert
                 (firstn k (List.concat (map iteration_lines readings)))))
    /\ match fst (while_true broker readings w) with
       | Ok _ =>
           firstn k (List.concat (map iteration_lines readings))
           = List.concat (map iteration_lines readings)
       | Raised e =>
           broker (publish_calls (snd (while_true broker readings w)))
           = Raises e
       end.
Proof.
  revert w. induction readings as [ | reading rest IH]; intros w.
  - exists 0%nat. destruct w. cbn. now rewrite !app_nil_r.
  - cbn [while_true map List.concat]. unfold bind.
    destruct (loop_body_trace reading w) as (k1 & Hk1 & Hworld1 & Hres1).
    destruct (loop_body broker reading w) as [[[] | e] w1].
    + cbn [fst snd] in *. subst k1 w1.
      rewrite firstn_all in *.
      destruct (IH (mkWorld (stdout w ++ iteration_lines reading)
                      (publish_calls w
                       ++ map (pair TOPIC)
                            (filter is_alert (iteration_lines reading)))))
        as (k2 & Hworld2 & Hres2).
      exists (List.length (iteration_lines reading) + k2)%nat.
      rewrite firstn_app_2. rewrite Hworld2.
      cbn [stdout publish_calls].
      rewrite filter_app, map_app. repeat rewrite <- app_assoc.
      split; [reflexivity | ].
      destruct (fst (while_true broker rest _)).
      * now rewrite Hres2.
      * rewrite Hworld2 in Hres2. cbn [publish_calls] in Hres2.
        repeat rewrite <- app_assoc in Hres2. exact Hres2.
    + cbn [fst snd] in *. exists k1.
      rewrite firstn_app.
      replace (k1 - List.length (iteration_lines reading))%nat with 0%nat
        by lia.
      rewrite firstn_0, app_nil_r.
      split; [exact Hworld1 | exact Hres1].
Qed.

End LoopTrace.

(** X8: One iteration makes at most three publish calls, all on [TOPIC],
    whatever the reading and whatever the broker does. *)
Theorem loop_body_at_most_three_publishes
    (broker : list (string * string) -> PublishOutcome)
    (reading : Reading) (w : World) :
  exists new : list (string * string),
    publish_calls (snd (loop_body broker reading w))
    = (publish_calls w ++ new)%list
    /\ (List.length new <= 3)%nat
    /\ Forall (fun call => fst call = TOPIC) new.
Proof.
  destruct (loop_body_trace broker reading w) as (k & Hk & Hworld & _).
  rewrite Hworld. cbn [publish_calls]. eexists. split; [reflexivity | ].
  split.
  - rewrite length_map.
    pose proof (filter_length_le is_alert
                  (firstn k (iteration_lines reading))) as Hfilter.
    pose proof (firstn_le_length k (iteration_lines reading)) as Hfirst.
    pose proof (iteration_lines_length reading). lia.
  - apply Forall_forall. intros call Hin.
    apply in_map_iff in Hin as (payload & <- & _). reflexivity.
Qed.

(** ** The callbacks: alerts that come back on the subscription *)

Section Plain.

Lemma plain_append (s1 s2 : string) :
  plain (s1 ++ s2) = plain s1 && plain s2.
Proof.
  induction s1 as [ | c s1 IH]; [reflexivity | ].
  cbn [String.append plain]. now rewrite IH, andb_assoc.
Qed.

Lemma plain_uint (u : Decimal.uint) :
  plain (NilEmpty.string_of_uint u) = true.
Proof. induction u; cbn [NilEmpty.string_of_uint plain]; auto. Qed.

Lemma plain_digits (n : Z) : plain (digits n) = true.
Proof.
  unfold digits, NilZero.string_of_uint.
  destruct (N.to_uint (Z.to_N n)) eqn:E; try reflexivity;
    rewrite <- E; apply plain_uint.
Qed.

Lemma plain_format_2f (x : float) : plain (format_2f x) = true.
Proof.
  destruct x as [[] | [] | | [] m e]; try reflexivity;
    cbn [format_2f sign_str]; unfold fixed2;
    rewrite !plain_append, !plain_digits; reflexivity.
Qed.

Lemma plain_evaluate_spec (temperature soil_moisture light_intensity : float) :
  forallb plain (evaluate_spec temperature soil_moisture light_intensity)
  = true.
Proof.
  assert (Htemp : forall wording, plain wording = true ->
            plain (temperature_alert wording temperature) = true).
  { intros wording Hw. unfold temperature_alert.
    now rewrite !plain_append, Hw, plain_format_2f. }
  unfold evaluate_spec, moisture_rule, temperature_rule, light_rule.
  destruct (gt soil_moisture (of_int 300)), (lt temperature (of_int 15)),
    (gt temperature (of_int 30)), (lt light_intensity (of_decimal 2 1));
    cbn [app forallb]; rewrite ?Htemp by reflexivity; reflexivity.
Qed.

Lemma plain_iteration_lines (reading : Reading) :
  forallb plain (iteration_lines reading) = true.
Proof.
  destruct reading as [[[[h | ] [t | ]] soil_moisture] light_intensity];
    try reflexivity.
  apply plain_evaluate_spec.
Qed.

Lemma escape_byte_plain (c : ascii) :
  plain_char c = true ->
  escape_byte single_quote c = String c ""
  /\ Ascii.eqb single_quote c = false.
Proof.
  destruct c as [[] [] [] [] [] [] [] []]; vm_compute; intros H;
    first [discriminate H | split; reflexivity].
Qed.

(** Bytes that are plain are written as they are, between single quotes. *)
Lemma str_bytes_plain (b : string) :
  plain b = true -> str_bytes b = "b'" ++ b ++ "'".
Proof.
  intros Hplain.
  assert (Hboth : contains single_quote b = false
                  /\ escape_bytes single_quote b = b).
  { induction b as [ | c rest IH]; [split; reflexivity | ].
    cbn [plain] in Hplain. apply andb_true_iff in Hplain as [Hc Hrest].
    destruct (IH Hrest) as [IHc IHe].
    destruct (escape_byte_plain c Hc) as [Hesc Hneq].
    cbn [contains escape_bytes]. rewrite Hesc, Hneq, IHc, IHe.
    split; reflexivity. }
  destruct Hboth as [Hnone Hesc].
  unfold str_bytes. rewrite Hnone. cbn [andb]. rewrite Hesc. reflexivity.
Qed.

End Plain.

Lemma main_loop_publish_calls
    (broker : list (string * string) -> PublishOutcome)
    (readings : list Reading) (w : World) :
  publish_calls (main_loop broker readings w)
  = publish_calls (snd (while_true broker readings w)).
Proof.
  unfold main_loop.
  now destruct (while_true broker readings w) as [[[] | e] w'].
Qed.

(** X12: the client receives what it publishes: after [on_connect], whatever the
    result code, any call the loop has made is on a subscribed topic, and
    when its payload comes back [on_message] prints the topic and the
    payload as a bytes literal in single quotes, without any escape. *)
Theorem published_alert_echo (rc : Z) (s : Session)
    (broker : list (string * string) -> PublishOutcome)
    (readings : list Reading) (w w2 : World)
    (new : list (string * string)) (call : string * string) :
  publish_calls (main_loop broker readings w) = (publish_calls w ++ new)%list ->
  In call new ->
  In (msg_topic (echoed call)) (subscriptions (on_connect rc s))
  /\ on_message (echoed call) w2
     = print (TOPIC ++ " b'" ++ snd call ++ "'") w2.
Proof.
  intros Hcalls Hin.
  destruct (while_true_trace broker readings w) as (k & Hworld & _).
  rewrite main_loop_publish_calls, Hworld in Hcalls. cbn [publish_calls] in Hcalls.
  apply app_inv_head in Hcalls. subst new.
  apply in_map_iff in Hin as (payload & <- & Hin).
  apply filter_In in Hin as [Hin _]. apply in_firstn in Hin.
  apply in_concat in Hin as (lines & Hlines & Hin).
  apply in_map_iff in Hlines as (reading & <- & _).
  pose proof (plain_iteration_lines reading) as Hplain.
  rewrite forallb_forall in Hplain. specialize (Hplain payload Hin).
  split.
  - cbn. apply in_or_app. right. now left.
  - unfold on_message, echoed. cbn [msg_topic msg_payload fst snd].
    now rewrite (str_bytes_plain payload Hplain).
Qed.

Lemma published_alert_echo_witness :
  publish_calls
    (main_loop unreachable_broker
       [(Some (of_int 40), Some (of_int 22), of_int 400, of_decimal 1 1)] w0)
  = (publish_calls w0
     ++ [(TOPIC, soil_dry_alert); (TOPIC, low_light_alert)])%list
  /\ In (TOPIC, low_light_alert)
       [(TOPIC, soil_dry_alert); (TOPIC, low_light_alert)]
  /\ In (msg_topic (echoed (TOPIC, low_light_alert)))
       (subscriptions (on_connect 5 (mkSession w0 [])))
  /\ on_message (echoed (TOPIC, low_light_alert)) w0
     = print (TOPIC ++ " b'" ++ snd (TOPIC, low_light_alert) ++ "'") w0.
Proof.
  split; [reflexivity | ]. split; [right; left; reflexivity | ].
  apply (published_alert_echo 5 (mkSession w0 []) unreachable_broker
           [(Some (of_int 40), Some (of_int 22), of_int 400, of_decimal 1 1)]
           w0 w0 [(TOPIC, soil_dry_alert); (TOPIC, low_light_alert)]
           (TOPIC, low_light_alert)).
  - reflexivity.
  - right; left; reflexivity.
Defined.

(** ** Humidity values do not matter *)

Lemma loop_body_same_but_humidity
    (broker : list (string * string) -> PublishOutcome)
    (r1 r2 : Reading) (w : World) :
  same_but_humidity r1 r2 -> loop_body broker r1 w = loop_body broker r2 w.
Proof.
  destruct r1 as [[[h1 t1] sm1] li1], r2 as [[[h2 t2] sm2] li2].
  intros (Hnone & <- & <- & <-). rewrite !loop_body_unfold.
  destruct h1 as [h1 | ], h2 as [h2 | ].
  - now rewrite (send_alerts_ignores_humidity_value h1 h2).
  - destruct Hnone as [_ Hnone]. discriminate (Hnone eq_refl).
  - destruct Hnone as [Hnone _]. discriminate (Hnone eq_refl).
  - reflexivity.
Qed.

(** X11: No humidity level changes what the program does: two runs over
    readings that differ only in the values of the humidity, present in
    the same iterations, print and publish the same. *)
Theorem main_loop_ignores_humidity_values
    (broker : list (string * string) -> PublishOutcome)
    (readings1 readings2 : list Reading) (w : World) :
  Forall2 same_but_humidity readings1 readings2 ->
  main_loop broker readings1 w = main_loop broker readings2 w.
Proof.
  intros Hsame. unfold main_loop.
  enough (Hloop : while_true broker readings1 w = while_true broker readings2 w)
    by now rewrite Hloop.
  revert w. induction Hsame as [ | r1 r2 rest1 rest2 Hr _ IH]; intros w.
  - reflexivity.
  - cbn [while_true]. unfold bind.
    rewrite (loop_body_same_but_humidity broker r1 r2 w Hr).
    destruct (loop_body broker r2 w) as [[[] | e] w']; [apply IH | reflexivity].
Qed.

Lemma main_loop_ignores_humidity_values_witness :
  Forall2 same_but_humidity
    [(Some (of_int 40), Some (of_int 10), of_int 400, of_decimal 1 1)]
    [(Some (of_int 99), Some (of_int 10), of_int 400, of_decimal 1 1)]
  /\ main_loop unreachable_broker
       [(Some (of_int 40), Some (of_int 10), of_int 400, of_decimal 1 1)] w0
     = main_loop unreachable_broker
         [(Some (of_int 99), Some (of_int 10), of_int 400, of_decimal 1 1)] w0.
Proof.
  assert (Hsame : Forall2 same_but_humidity
            [(Some (of_int 40), Some (of_int 10), of_int 400, of_decimal 1 1)]
            [(Some (of_int 99), Some (of_int 10), of_int 400, of_decimal 1 1)]).
  { constructor; [ | constructor].
    split; [split; discriminate | repeat split]. }
  split; [exact Hsame | ].
  apply (main_loop_ignores_humidity_values unreachable_broker _ _ w0 Hsame).
Defined.

(** ** Runs in which the DHT sensor keeps failing *)

(** X10: A DHT failure does not stop the loop and is never published: over
    readings that all lack humidity or temperature, whatever the broker and
    the other sensors, the program prints the diagnostic once per iteration,
    then the interrupt handler's line, and makes no publish call. *)
Theorem main_loop_dht_failures
    (broker : list (string * string) -> PublishOutcome)
    (readings : list Reading) (w : World) :
  Forall dht_failed readings ->
  main_loop broker readings w
  = mkWorld
      (stdout w ++ repeat sensor_failure_message (List.length readings)
       ++ ["Terminating the program."])
      (publish_calls w).
Proof.
  intros Hfailed. unfold main_loop.
  enough (Hloop : while_true broker readings w
                  = (Ok tt,
                     mkWorld
                       (stdout w
                        ++ repeat sensor_failure_message (List.length readings))
                       (publish_calls w))).
  { rewrite Hloop. cbn. now rewrite <- app_assoc. }
  revert w. induction Hfailed as [ | r rest Hr _ IH]; intros w.
  - destruct w. cbn. unfold ret. now rewrite app_nil_r.
  - destruct r as [[[humidity temperature] soil_moisture] light_intensity].
    cbn [while_true]. unfold bind. rewrite loop_body_unfold.
    rewrite (send_alerts_absent _ _ _ _ _ Hr). cbn [truthy].
    rewrite IH. cbn [stdout publish_calls List.length repeat].
    now rewrite <- app_assoc.
Qed.

Lemma main_loop_dht_failures_witness :
  Forall dht_failed
    [(None, None, of_int 999, of_decimal 1 2);
     (Some (of_int 40), None, of_int 400, of_decimal 1 1)]
  /\ main_loop (broker_raising_at 1 "boom")
       [(None, None, of_int 999, of_decimal 1 2);
        (Some (of_int 40), None, of_int 400, of_decimal 1 1)] w0
     = mkWorld
         (stdout w0 ++ repeat sensor_failure_message 2
          ++ ["Terminating the program."])
         (publish_calls w0).
Proof.
  assert (Hfailed : Forall dht_failed
            [(None, None, of_int 999, of_decimal 1 2);
             (Some (of_int 40), None, of_int 400, of_decimal 1 1)]).
  { constructor; [left; reflexivity | ].
    constructor; [right; reflexivity | constructor]. }
  split; [exact Hfailed | ].
  apply (main_loop_dht_failures (broker_raising_at 1 "boom") _ w0 Hfailed).
Defined.

(** ** The rules are monotone *)

(** X3: A reading further out of bounds than one that raises an alert raises
    it too: a soil moisture above one that is above 300, a temperature
    below one that is below 15 or above one that is above 30, a light
    intensity below one that is below 0.2. *)
Theorem alerts_monotone (humidity temperature temperature' soil_moisture
    soil_moisture' light_intensity light_intensity' : float) (w : World) :
  exists alerts : list string,
    send_alerts (Some humidity) (Some temperature') soil_moisture'
      light_intensity' w = (Ok (Some alerts), w)
    /\ (gt soil_moisture (of_int 300) = true ->
        gt soil_moisture' soil_moisture = true ->
        count is_moisture_alert alerts = 1%nat)
    /\ (lt temperature (of_int 15) = true ->
        lt temperature' temperature = true ->
        count is_temperature_alert alerts = 1%nat)
    /\ (gt temperature (of_int 30) = true ->
        gt temperature' temperature = true ->
        count is_temperature_alert alerts = 1%nat)
    /\ (lt light_intensity (of_decimal 2 1) = true ->
        lt light_intensity' light_intensity = true ->
        count is_light_alert alerts = 1%nat).
Proof.
  exists (evaluate_spec temperature' soil_moisture' light_intensity').
  split; [apply send_alerts_present | ].
  rewrite count_moisture_alerts, count_temperature_alerts, count_light_alerts.
  rewrite !gt_lt. repeat split; intros Hout Hfurther.
  - now rewrite (lt_trans _ _ _ Hout Hfurther).
  - now rewrite (lt_trans _ _ _ Hfurther Hout).
  - rewrite (lt_trans _ _ _ Hout Hfurther). now rewrite orb_true_r.
  - now rewrite (lt_trans _ _ _ Hfurther Hout).
Qed.

Lemma alerts_monotone_witness :
  exists alerts : list string,
    send_alerts (Some (of_int 50)) (Some (of_int 5)) (of_int 500)
      (of_decimal 5 2) w0 = (Ok (Some alerts), w0)
    /\ count is_moisture_alert alerts = 1%nat
    /\ count is_temperature_alert alerts = 1%nat
    /\ count is_light_alert alerts = 1%nat.
Proof.
  destruct (alerts_monotone (of_int 50) (of_int 10) (of_int 5) (of_int 400)
              (of_int 500) (of_decimal 1 1) (of_decimal 5 2) w0)
    as (alerts & Hsend & Hsoil & Hlow & _ & Hlight).
  exists alerts. split; [exact Hsend | ].
  split; [apply Hsoil; reflexivity | ].
  split; [apply Hlow; reflexivity | apply Hlight; reflexivity].
Defined.

(** ** Runs interrupted at any point *)



Section Runs.

Variable broker : list (string * string) -> PublishOutcome.

Lemma perform_app (a b : list Effect) (w : World) :
  perform broker (a ++ b) w
  = match perform broker a w with
    | (Ok _, w') => perform broker b w'
    | (Raised e, w') => (Raised e, w')
    end.
Proof.
  revert w. induction a as [ | [line | topic payload] a IH]; intros w.
  - reflexivity.
  - cbn [app perform]. unfold bind, print. apply IH.
  - cbn [app perform]. unfold bind.
    destruct (client_publish broker topic payload w) as [[rc | e] w'];
      [apply IH | reflexivity].
Qed.

(** The effects of an iteration, performed, are the iteration. *)
Lemma perform_alerts (alerts : list string) (w : World) :
  perform broker
    (flat_map (fun alert => [DoPrint alert; DoPublish TOPIC alert]) alerts) w
  = for_alert_in broker alerts w.
Proof.
  revert w. induction alerts as [ | alert rest IH]; intros w.
  - reflexivity.
  - cbn [flat_map app perform for_alert_in]. unfold bind, print.
    destruct (client_publish broker TOPIC alert _) as [[rc | e] w'];
      [apply IH | reflexivity].
Qed.

Lemma perform_iteration (reading : Reading) (w : World) :
  perform broker (iteration_effects reading) w = loop_body broker reading w.
Proof.
  destruct reading as [[[humidity temperature] soil_moisture] light_intensity].
  rewrite loop_body_unfold.
  destruct humidity as [h | ], temperature as [t | ];
    try (rewrite send_alerts_absent by auto; reflexivity).
  rewrite send_alerts_present.
  cbn [iteration_effects iteration_payloads]. rewrite perform_alerts.
  now destruct (evaluate_spec t soil_moisture light_intensity).
Qed.

Lemma perform_iterations (readings : list Reading) (w : World) :
  perform broker (List.concat (map iteration_effects readings)) w
  = while_true broker readings w.
Proof.
  revert w. induction readings as [ | reading rest IH]; intros w.
  - reflexivity.
  - cbn [map List.concat while_true]. rewrite perform_app, perform_iteration.
    unfold bind.
    destruct (loop_body broker reading w) as [[[] | e] w'];
      [apply IH | reflexivity].
Qed.

(** An interrupt that arrives after the last effect of the readings is the
    interrupt between two iterations. *)
Lemma main_run_between_iterations (readings : list Reading) (w : World) :
  main_run broker
    (List.length (List.concat (map iteration_effects readings))) readings w
  = main_loop broker readings w.
Proof.
  unfold main_run, main_loop. now rewrite firstn_all, perform_iterations.
Qed.


End Runs.





(** ** Iterations that nothing disturbs *)

(** X9: iterations that run undisturbed compose: when every publish
    returns, whatever the return codes, and no interrupt falls inside them,
    the iterations for any sequence of readings end normally, having
    printed the lines of each in order (the alerts returned, or the one
    diagnostic when the DHT read failed) and published every alert
    returned, in order, on [TOPIC]. *)
Theorem iterations_undisturbed
    (broker : list (string * string) -> PublishOutcome)
    (readings : list Reading) (w : World) :
  (forall calls, exists rc : Z, broker calls = Returned rc) ->
  while_true broker readings w
  = (Ok tt,
     mkWorld (stdout w ++ List.concat (map iteration_lines readings))
       (publish_calls w
        ++ map (pair TOPIC) (List.concat (map iteration_payloads readings)))).
Proof.
  intros Hret. apply (while_true_returned broker Hret).
Qed.

Lemma iterations_undisturbed_witness :
  (forall calls, exists rc : Z, unreachable_broker calls = Returned rc)
  /\ while_true unreachable_broker
       [(None, None, of_int 999, of_decimal 1 2);
        (Some (of_int 40), Some (of_int 22), of_int 400, of_decimal 1 1);
        (Some (of_int 50), Some (of_int 10), of_int 200, of_decimal 5 1)] w0
     = (Ok tt,
        mkWorld
          (stdout w0
           ++ List.concat
                (map iteration_lines
                   [(None, None, of_int 999, of_decimal 1 2);
                    (Some (of_int 40), Some (of_int 22), of_int 400,
                     of_decimal 1 1);
                    (Some (of_int 50), Some (of_int 10), of_int 200,
                     of_decimal 5 1)]))
          (publish_calls w0
           ++ map (pair TOPIC)
                (List.concat
                   (map iteration_payloads
                      [(None, None, of_int 999, of_decimal 1 2);
                       (Some (of_int 40), Some (of_int 22), of_int 400,
                        of_decimal 1 1);
                       (Some (of_int 50), Some (of_int 10), of_int 200,
                        of_decimal 5 1)]))))
  /\ stdout
       (snd (while_true unreachable_broker
               [(None, None, of_int 999, of_decimal 1 2);
                (Some (of_int 40), Some (of_int 22), of_int 400,
                 of_decimal 1 1);
                (Some (of_int 50), Some (of_int 10), of_int 200,
                 of_decimal 5 1)] w0))
     = ["Failed to retrieve data from DHT sensor";
        "Soil is too dry. Consider watering the plant.";
        "Plant needs more light.";
        "Temperature is too low. Current temp: 10.00 C"].
Proof.
  split; [intros calls; exists 4; reflexivity | ].
  split; [ | reflexivity].
  apply (iterations_undisturbed unreachable_broker).
  intros calls; exists 4; reflexivity.
Defined.

(** ** A publish that raises *)


Section Raising.

Variable broker : list (string * string) -> PublishOutcome.
Variable N : nat.
Variable e : string.

(** The first [N - 1] publish calls return and the [N]-th raises [e]. *)
Hypothesis earlier_return :
  forall calls, (List.length calls < N)%nat ->
                exists rc : Z, broker calls = Returned rc.
Hypothesis nth_raises :
  forall calls, List.length calls = N -> broker calls = Raises e.




End Raising.


